(** * The entrypoint of the SQuAD question-answering driver (src/main.py)

    A shallow embedding of [initialize_model], [main] and the
    [if __name__ == "__main__"] block, followed by the properties the
    specification states about them.

    The entrypoint is glue code: it validates flags, fills two defaults
    into the global [FLAGS] object, and sequences calls to collaborators
    (the embedding loader, the model, the evaluation helper) and to the
    deep-learning framework.  The embedding therefore is a state-and-error
    monad over a [World] holding the global [FLAGS], [os.environ], the
    file-system facts the code asks about, and a trace of the observable
    actions in the order the code performs them.

    What is modelled and what is not:
    - a path is the string the code builds; two spellings of one path are
      two paths, and [os.makedirs] records the path it is given, not its
      parents;
    - calls into the collaborator modules may raise; calls into the standard
      library and the framework return (a restore of a checkpoint whose
      file exists succeeds, a file can be opened for writing);
    - a collaborator call that never returns (training with
      [--num_epochs 0]) has no run here: the model describes the runs in
      which each call returns or raises;
    - [parser.parse_known_args()] is not modelled: its result, the
      namespace and the list of unparsed arguments, is an input of the
      script. *)

From stdpp Require Import base gmap strings list pretty.
From Stdlib Require Import ZArith Lia Ascii String.

Local Open Scope string_scope.
Local Open Scope Z_scope.

(** ** Python library functions the entrypoint uses *)

Module Py.

(** Truthiness of a [str]: the empty string is false. *)
Definition truthy (s : string) : bool :=
  match s with
  | EmptyString => false
  | String _ _ => true
  end.

(** [a or b] on strings. *)
Definition or_else (a b : string) : string :=
  if truthy a then a else b.

Definition startswith_sep (s : string) : bool :=
  match s with
  | String c _ => bool_decide (c = "/"%char)
  | EmptyString => false
  end.

Fixpoint endswith_sep (s : string) : bool :=
  match s with
  | EmptyString => false
  | String c EmptyString => bool_decide (c = "/"%char)
  | String _ rest => endswith_sep rest
  end.

(** [posixpath.join(a, b)]: an absolute [b] replaces [a]; otherwise [b] is
    appended, with a separator unless [a] is empty or already ends in one. *)
Definition path_join (a b : string) : string :=
  if startswith_sep b then b
  else if negb (truthy a) || endswith_sep a then a +:+ b
  else a +:+ "/" +:+ b.

(** [str(n)], ["%d" % n], ["%i" % n] and ["{}".format(n)] for an [int]. *)
Definition str_int (n : Z) : string := pretty n.

Definition hex_digit (n : N) : ascii :=
  match n with
  | 0 => "0" | 1 => "1" | 2 => "2" | 3 => "3" | 4 => "4" | 5 => "5"
  | 6 => "6" | 7 => "7" | 8 => "8" | 9 => "9" | 10 => "a" | 11 => "b"
  | 12 => "c" | 13 => "d" | 14 => "e" | _ => "f"
  end%N%char.

Fixpoint contains_char (c : ascii) (s : string) : bool :=
  match s with
  | EmptyString => false
  | String d rest => bool_decide (c = d) || contains_char c rest
  end.

(** The body of [repr(s)] between the quotes, for the quote character [q]:
    backslash, the quote, newline, carriage return and tab are escaped, the
    other control characters are written [\xNN].  Bytes above 127 are kept
    (a string here is the UTF-8 encoding of the Python string). *)
Fixpoint repr_body (q : ascii) (s : string) : string :=
  match s with
  | EmptyString => EmptyString
  | String c rest =>
      let n := N_of_ascii c in
      (if bool_decide (c = "\"%char) then "\\"
       else if bool_decide (c = q) then String "\" (String q EmptyString)
       else if (n =? 10)%N then "\n"
       else if (n =? 13)%N then "\r"
       else if (n =? 9)%N then "\t"
       else if (n <? 32)%N || (n =? 127)%N
            then "\x" +:+ String (hex_digit (n / 16)) (String (hex_digit (n mod 16)) EmptyString)
       else String c EmptyString) +:+ repr_body q rest
  end.

Definition squote : ascii := "'"%char.
Definition dquote : ascii := ascii_of_N 34.

(** [repr(s)]: single quotes, unless the string holds a single quote and
    no double quote. *)
Definition repr_str (s : string) : string :=
  let q := if contains_char squote s && negb (contains_char dquote s)
           then dquote else squote in
  String q (repr_body q s) +:+ String q EmptyString.

Fixpoint repr_items (l : list string) : string :=
  match l with
  | [] => ""
  | [s] => repr_str s
  | s :: rest => repr_str s +:+ ", " +:+ repr_items rest
  end.

(** ["%s" % l] for a list of strings. *)
Definition repr_list (l : list string) : string :=
  "[" +:+ repr_items l +:+ "]".

(** [TensorShape.num_elements()] of a fully defined shape. *)
Definition num_elements (shape : list Z) : Z :=
  foldr Z.mul 1 shape.

(** [sum(...)] over a generator of ints. *)
Definition sum (l : list Z) : Z := foldr Z.add 0 l.

End Py.

(** ** The configuration object

    [FLAGS] is the [argparse.Namespace] built by the parser at the bottom of
    the file: one attribute per [add_argument].  The entrypoint never
    computes with the three [float] hyperparameters, so a float is carried
    as the text it was parsed from. *)

Inductive pyfloat := PyFloat (text : string).

Record Flags := mkFlags {
  gpu : Z;
  mode : string;
  experiment_name : string;
  num_epochs : Z;
  learning_rate : pyfloat;
  max_gradient_norm : pyfloat;
  dropout : pyfloat;
  batch_size : Z;
  hidden_size : Z;
  context_len : Z;
  question_len : Z;
  embedding_size : Z;
  print_every : Z;
  save_every : Z;
  eval_every : Z;
  keep : Z;
  train_dir : string;
  glove_path : string;
  data_dir : string;
  ckpt_load_dir : string;
  json_in_path : string;
  json_out_path : string
}.

(** [FLAGS.train_dir = v] *)
Definition set_train_dir (v : string) (f : Flags) : Flags :=
  mkFlags (gpu f) (mode f) (experiment_name f) (num_epochs f)
    (learning_rate f) (max_gradient_norm f) (dropout f) (batch_size f)
    (hidden_size f) (context_len f) (question_len f) (embedding_size f)
    (print_every f) (save_every f) (eval_every f) (keep f)
    v (glove_path f) (data_dir f) (ckpt_load_dir f) (json_in_path f)
    (json_out_path f).

(** [FLAGS.glove_path = v] *)
Definition set_glove_path (v : string) (f : Flags) : Flags :=
  mkFlags (gpu f) (mode f) (experiment_name f) (num_epochs f)
    (learning_rate f) (max_gradient_norm f) (dropout f) (batch_size f)
    (hidden_size f) (context_len f) (question_len f) (embedding_size f)
    (print_every f) (save_every f) (eval_every f) (keep f)
    (train_dir f) v (data_dir f) (ckpt_load_dir f) (json_in_path f)
    (json_out_path f).

(** ** Observable actions, errors and the world *)

(** The calls the entrypoint makes to the outside, in the order it makes
    them.  [Import] to [TfAppRun] occur at module level, the others inside
    [main] and [initialize_model]. *)
Inductive event :=
  | Import (module : string)
  | LoggingBasicConfig
  | ParseKnownArgs
  | SetEnviron (name value : string)
  | TfAppRun (argv : list string)
  | Print (line : string)
  | GetGlove (path : string) (dim : Z)
  | NewQAModel (flags : Flags)
  | TfConfigProto
  | Makedirs (path : string)
  | LogToFile (path : string)
  | DumpFlags (path : string) (flags : Flags)
  | SessionEnter
  | SessionExit
  | GetCheckpointState (dir : string)
  | GfileExists (path : string)
  | SaverRestore (path : string)
  | RunGlobalVariablesInitializer
  | Train (train_context train_qn train_ans dev_qn dev_context dev_ans : string)
  | CheckF1EM (context qn ans dataset : string) (num_samples : Z)
              (print_to_screen : bool)
  | GetJsonData (path : string)
  | GenerateAnswers
  | WriteAnswers (path : string) (answers : list (string * string)).

(** [raise Exception(msg)] in this file, or an exception that escapes from a
    call into a collaborator module. *)
Inductive exn :=
  | Exception (msg : string)
  | Propagated (callee : string).

Inductive result (A : Type) :=
  | Ok (a : A)
  | Raise (e : exn).
Arguments Ok {A} a.
Arguments Raise {A} e.

(** Where the model parameters of the session come from. *)
Inductive params_state :=
  | NoParams
  | FreshParams
  | RestoredFrom (checkpoint_path : string).

Record World := mkWorld {
  FLAGS : Flags;                          (* the module-level global *)
  environ : gmap string string;           (* os.environ *)
  existing : gset string;                 (* paths os.path.exists / tf.gfile.Exists answer True for *)
  checkpoint_state : gmap string string;  (* directory -> model_checkpoint_path of its latest checkpoint *)
  trainable_variables : list (list Z);    (* shapes of tf.trainable_variables() *)
  params : params_state;
  trace : list event                      (* oldest first *)
}.

Definition with_FLAGS (f : Flags) (w : World) : World :=
  mkWorld f (environ w) (existing w) (checkpoint_state w)
    (trainable_variables w) (params w) (trace w).

Definition with_environ (e : gmap string string) (w : World) : World :=
  mkWorld (FLAGS w) e (existing w) (checkpoint_state w)
    (trainable_variables w) (params w) (trace w).

Definition with_existing (s : gset string) (w : World) : World :=
  mkWorld (FLAGS w) (environ w) s (checkpoint_state w)
    (trainable_variables w) (params w) (trace w).

Definition with_trainable_variables (v : list (list Z)) (w : World) : World :=
  mkWorld (FLAGS w) (environ w) (existing w) (checkpoint_state w)
    v (params w) (trace w).

Definition with_params (p : params_state) (w : World) : World :=
  mkWorld (FLAGS w) (environ w) (existing w) (checkpoint_state w)
    (trainable_variables w) p (trace w).

Definition with_trace (t : list event) (w : World) : World :=
  mkWorld (FLAGS w) (environ w) (existing w) (checkpoint_state w)
    (trainable_variables w) (params w) t.

(** ** The state-and-error monad *)

Definition M (A : Type) : Type := World -> result A * World.

Definition ret {A} (a : A) : M A := fun w => (Ok a, w).

Definition bind {A B} (m : M A) (k : A -> M B) : M B :=
  fun w =>
    match m w with
    | (Ok a, w') => k a w'
    | (Raise e, w') => (Raise e, w')
    end.

Definition raise {A} (e : exn) : M A := fun w => (Raise e, w).

(** Reads something off the world. *)
Definition gets {A} (f : World -> A) : M A := fun w => (Ok (f w), w).

Definition modify (f : World -> World) : M unit := fun w => (Ok tt, f w).

Notation "x <- m ;; k" := (bind m (fun x => k))
  (at level 100, m at next level, right associativity).
Notation "m ;;; k" := (bind m (fun _ => k))
  (at level 100, right associativity).

Definition emit (e : event) : M unit :=
  modify (fun w => with_trace (trace w ++ [e]) w).

Definition print (line : string) : M unit := emit (Print line).

(** A call into a collaborator module: [None] stands for the call raising. *)
Definition call {A} (callee : string) (outcome : option A) : M A :=
  match outcome with
  | Some a => ret a
  | None => raise (Propagated callee)
  end.

(** [try: body finally: cleanup], the shape of a [with] block. *)
Definition finally {A} (body : M A) (cleanup : M unit) : M A :=
  fun w =>
    match body w with
    | (r, w') =>
        match cleanup w' with
        | (Ok _, w'') => (r, w'')
        | (Raise e, w'') => (Raise e, w'')
        end
    end.

(** The final world and the outcome of running a computation. *)
Definition outcome {A} (m : M A) (w : World) : result A := fst (m w).
Definition after {A} (m : M A) (w : World) : World := snd (m w).

(** ** What the entrypoint runs on

    [Platform] holds what the interpreter and the installation fix.
    [Collaborators] holds the modules imported on lines 30 to 32
    ([qa_model], [vocab], [official_eval_helper]): their values are opaque
    to the entrypoint, and each call either returns ([Some]) or raises
    ([None]).  Calls into the standard library and the framework are
    modelled as returning. *)

Record Platform := mkPlatform {
  MAIN_DIR : string;       (* os.path.relpath of the repository root, line 37 *)
  version_major : Z;       (* sys.version_info[0] *)
  tf_version : string      (* tf.__version__ *)
}.

Record Collaborators := mkCollaborators {
  Embeddings : Type;       (* emb_matrix, word2id, id2word *)
  Model : Type;            (* a QAModel *)
  EvalData : Type;         (* qn_uuid_data, context_token_data, qn_token_data *)
  get_glove : string -> Z -> option Embeddings;
  QAModel : Flags -> Embeddings -> option Model;
  model_variables : Model -> list (list Z);
  model_train : Model -> string -> string -> string -> string -> string ->
                string -> option unit;
  model_check_f1_em : Model -> string -> string -> string -> string -> Z ->
                      bool -> option (pyfloat * pyfloat);
  get_json_data : string -> option EvalData;
  generate_answers : Model -> Embeddings -> EvalData ->
                     option (list (string * string))
}.

Section Entrypoint.

Variable P : Platform.
Variable C : Collaborators.

(** Lines 37 to 40. *)
Definition DEFAULT_DATA_DIR : string := Py.path_join (MAIN_DIR P) "data".
Definition EXPERIMENTS_DIR : string := Py.path_join (MAIN_DIR P) "experiments".

(** The namespace [parse_known_args] returns for an empty command line:
    the [default=] of each [add_argument], lines 178 to 293. *)
Definition default_flags : Flags :=
  {| gpu := 0;
     mode := "train";
     experiment_name := "";
     num_epochs := 0;
     learning_rate := PyFloat "0.001";
     max_gradient_norm := PyFloat "5.0";
     dropout := PyFloat "0.15";
     batch_size := 100;
     hidden_size := 200;
     context_len := 600;
     question_len := 30;
     embedding_size := 100;
     print_every := 1;
     save_every := 500;
     eval_every := 500;
     keep := 1;
     train_dir := "";
     glove_path := "";
     data_dir := DEFAULT_DATA_DIR;
     ckpt_load_dir := "";
     json_in_path := "";
     json_out_path := "predictions.json" |}.

(** *** Primitive actions *)

Definition flag {A} (field : Flags -> A) : M A :=
  gets (fun w => field (FLAGS w)).

Definition assign_flag (update : Flags -> Flags) : M unit :=
  modify (fun w => with_FLAGS (update (FLAGS w)) w).

(** [if cond: body] *)
Definition when (cond : bool) (body : M unit) : M unit :=
  if cond then body else ret tt.

Definition os_path_exists (path : string) : M bool :=
  gets (fun w => bool_decide (path ∈ existing w)).

Definition create_path (path : string) : M unit :=
  modify (fun w => with_existing ({[path]} ∪ existing w) w).

Definition os_makedirs (path : string) : M unit :=
  emit (Makedirs path) ;;; create_path path.

Definition os_environ_set (name value : string) : M unit :=
  emit (SetEnviron name value) ;;;
  modify (fun w => with_environ (<[name := value]> (environ w)) w).

Definition tf_train_get_checkpoint_state (dir : string) : M (option string) :=
  emit (GetCheckpointState dir) ;;;
  gets (fun w => checkpoint_state w !! dir).

Definition tf_gfile_Exists (path : string) : M bool :=
  emit (GfileExists path) ;;; os_path_exists path.

Definition saver_restore (path : string) : M unit :=
  emit (SaverRestore path) ;;;
  modify (with_params (RestoredFrom path)).

Definition run_global_variables_initializer : M unit :=
  emit RunGlobalVariablesInitializer ;;;
  modify (with_params FreshParams).

Definition tf_trainable_variables : M (list (list Z)) :=
  gets trainable_variables.

(** [with tf.Session(config=config) as sess: body] *)
Definition with_session {A} (body : M A) : M A :=
  emit SessionEnter ;;;
  finally body (emit SessionExit).

(** *** [initialize_model], lines 43 to 66

    [ckpt] is [None] or a checkpoint state, of which only
    [model_checkpoint_path] is used.  The condition of line 57 is
    computed first, left to right with Python's short circuits; it
    yields the checkpoint path when it holds. *)
Definition initialize_model (model : Model C) (train_dir : string)
    (expect_exists : bool) : M unit :=
  print ("Looking for model at " +:+ train_dir +:+ "...") ;;;
  ckpt <- tf_train_get_checkpoint_state train_dir ;;
  let v2_path :=
    match ckpt with
    | Some model_checkpoint_path => model_checkpoint_path +:+ ".index"
    | None => ""
    end in
  readable <-
    match ckpt with
    | Some model_checkpoint_path =>
        e1 <- tf_gfile_Exists model_checkpoint_path ;;
        e <- (if e1 then ret true else tf_gfile_Exists v2_path) ;;
        ret (if e then Some model_checkpoint_path else None)
    | None => ret None
    end ;;
  match readable with
  | Some model_checkpoint_path =>
      print ("Reading model parameters from " +:+ model_checkpoint_path) ;;;
      saver_restore model_checkpoint_path
  | None =>
      if expect_exists then
        raise (Exception ("There is no saved checkpoint at " +:+ train_dir))
      else
        print ("There is no saved checkpoint at " +:+ train_dir +:+
               ". Creating model with fresh parameters.") ;;;
        run_global_variables_initializer ;;;
        vars <- tf_trainable_variables ;;
        print ("Num params: " +:+
               Py.str_int (Py.sum (map Py.num_elements vars)))
  end.

(** *** The three branches of [main] *)

(** Lines 111 to 133. *)
Definition train_branch (qa_model : Model C) (bestmodel_dir : string)
    (train_context_path train_qn_path train_ans_path
     dev_context_path dev_qn_path dev_ans_path : string) : M unit :=
  dir <- flag train_dir ;;
  there <- os_path_exists dir ;;
  when (negb there) (os_makedirs dir) ;;;
  dir <- flag train_dir ;;
  emit (LogToFile (Py.path_join dir "log.txt")) ;;;
  create_path (Py.path_join dir "log.txt") ;;;
  dir <- flag train_dir ;;
  snapshot <- gets FLAGS ;;
  emit (DumpFlags (Py.path_join dir "flags.json") snapshot) ;;;
  create_path (Py.path_join dir "flags.json") ;;;
  there <- os_path_exists bestmodel_dir ;;
  when (negb there) (os_makedirs bestmodel_dir) ;;;
  with_session (
    dir <- flag train_dir ;;
    initialize_model qa_model dir false ;;;
    emit (Train train_context_path train_qn_path train_ans_path
                dev_qn_path dev_context_path dev_ans_path) ;;;
    call "qa_model.train"
      (model_train C qa_model train_context_path train_qn_path
         train_ans_path dev_qn_path dev_context_path dev_ans_path)).

(** Lines 136 to 143. *)
Definition show_examples_branch (qa_model : Model C) (bestmodel_dir : string)
    (dev_context_path dev_qn_path dev_ans_path : string) : M unit :=
  with_session (
    initialize_model qa_model bestmodel_dir true ;;;
    emit (CheckF1EM dev_context_path dev_qn_path dev_ans_path "dev" 10 true) ;;;
    _ <- call "qa_model.check_f1_em"
           (model_check_f1_em C qa_model dev_context_path dev_qn_path
              dev_ans_path "dev" 10 true) ;;
    ret tt).

(** Lines 146 to 168. *)
Definition official_eval_branch (qa_model : Model C)
    (embeddings : Embeddings C) : M unit :=
  json_in <- flag json_in_path ;;
  when (String.eqb json_in "")
    (raise (Exception "For official_eval mode, you need to specify --json_in_path")) ;;;
  ckpt_dir <- flag ckpt_load_dir ;;
  when (String.eqb ckpt_dir "")
    (raise (Exception "For official_eval mode, you need to specify --ckpt_load_dir")) ;;;
  json_in <- flag json_in_path ;;
  emit (GetJsonData json_in) ;;;
  data <- call "get_json_data" (get_json_data C json_in) ;;
  with_session (
    ckpt_dir <- flag ckpt_load_dir ;;
    initialize_model qa_model ckpt_dir true ;;;
    emit GenerateAnswers ;;;
    answers_dict <- call "generate_answers"
                      (generate_answers C qa_model embeddings data) ;;
    json_out <- flag json_out_path ;;
    print ("Writing predictions to " +:+ json_out +:+ "...") ;;;
    json_out <- flag json_out_path ;;
    emit (WriteAnswers json_out answers_dict) ;;;
    create_path json_out ;;;
    json_out <- flag json_out_path ;;
    print ("Wrote predictions to " +:+ json_out)).

(** *** [main], lines 69 to 172 *)
Definition main (unused_argv : list string) : M unit :=
  when (negb (List.length unused_argv =? 1)%nat)
    (raise (Exception ("There is a problem with how you entered flags: " +:+
                       Py.repr_list unused_argv))) ;;;
  when (negb (version_major P =? 3))
    (raise (Exception ("ERROR: You must use Python 2 but you are running Python " +:+
                       Py.str_int (version_major P)))) ;;;
  print ("This code was developed and tested on TensorFlow 1.8.0. Your TensorFlow version: " +:+
         tf_version P) ;;;
  name <- flag experiment_name ;;
  dir <- flag train_dir ;;
  md <- flag mode ;;
  when (negb (Py.truthy name) && negb (Py.truthy dir) &&
        negb (String.eqb md "official_eval"))
    (raise (Exception "You need to specify either --experiment_name or --train_dir")) ;;;
  dir <- flag train_dir ;;
  name <- flag experiment_name ;;
  assign_flag (set_train_dir (Py.or_else dir (Py.path_join EXPERIMENTS_DIR name))) ;;;
  dir <- flag train_dir ;;
  let bestmodel_dir := Py.path_join dir "best_checkpoint" in
  glove <- flag glove_path ;;
  size <- flag embedding_size ;;
  assign_flag (set_glove_path
    (Py.or_else glove
       (Py.path_join DEFAULT_DATA_DIR ("glove.6B." +:+ Py.str_int size +:+ "d.txt")))) ;;;
  glove <- flag glove_path ;;
  size <- flag embedding_size ;;
  emit (GetGlove glove size) ;;;
  embeddings <- call "get_glove" (get_glove C glove size) ;;
  data <- flag data_dir ;;
  let train_context_path := Py.path_join data "train.context" in
  let train_qn_path := Py.path_join data "train.question" in
  let train_ans_path := Py.path_join data "train.span" in
  let dev_context_path := Py.path_join data "dev.context" in
  let dev_qn_path := Py.path_join data "dev.question" in
  let dev_ans_path := Py.path_join data "dev.span" in
  snapshot <- gets FLAGS ;;
  emit (NewQAModel snapshot) ;;;
  qa_model <- call "QAModel" (QAModel C snapshot embeddings) ;;
  (* building the model is what puts its variables into the graph *)
  modify (with_trainable_variables (model_variables C qa_model)) ;;;
  emit TfConfigProto ;;;
  md <- flag mode ;;
  if String.eqb md "train" then
    train_branch qa_model bestmodel_dir train_context_path train_qn_path
      train_ans_path dev_context_path dev_qn_path dev_ans_path
  else if String.eqb md "show_examples" then
    show_examples_branch qa_model bestmodel_dir dev_context_path dev_qn_path
      dev_ans_path
  else if String.eqb md "official_eval" then
    official_eval_branch qa_model embeddings
  else
    raise (Exception ("Unexpected value of FLAGS.mode: " +:+ md)).

(** *** The [if __name__ == "__main__"] block, with the module-level
    statements that run before it

    [parsed] and [unparsed] are what [parser.parse_known_args()] returns
    for the command line; [argv0] is [sys.argv[0]].  [tf.app.run] calls
    [main] with the list it is given. *)
(* lines 21 to 32; the [from __future__] lines are compiler directives *)
Definition imports : list string :=
  ["os"; "io"; "json"; "sys"; "logging"; "argparse"; "tensorflow";
   "qa_model"; "vocab"; "official_eval_helper"].

Fixpoint run_imports (modules : list string) : M unit :=
  match modules with
  | [] => ret tt
  | m :: rest => emit (Import m) ;;; run_imports rest
  end.

Definition tf_app_run (argv : list string) : M unit :=
  emit (TfAppRun argv) ;;; main argv.

Definition script (argv0 : string) (parsed : Flags) (unparsed : list string)
    : M unit :=
  run_imports imports ;;;
  emit LoggingBasicConfig ;;;
  emit ParseKnownArgs ;;;
  modify (with_FLAGS parsed) ;;;
  g <- flag gpu ;;
  os_environ_set "CUDA_VISIBLE_DEVICES" (Py.str_int g) ;;;
  tf_app_run (argv0 :: unparsed).

End Entrypoint.

(** ** Concrete runs

    A Python 3 installation started from the repository root, collaborators
    whose calls all return, and a world in which nothing exists yet. *)

Definition here : Platform :=
  {| MAIN_DIR := "."; version_major := 3; tf_version := "1.8.0" |}.

Definition python2 : Platform :=
  {| MAIN_DIR := "."; version_major := 2; tf_version := "1.8.0" |}.

Definition stub : Collaborators :=
  {| Embeddings := unit;
     Model := unit;
     EvalData := unit;
     get_glove := fun _ _ => Some tt;
     QAModel := fun _ _ => Some tt;
     model_variables := fun _ => [[400; 200]; [200]; [7; 3; 2]];
     model_train := fun _ _ _ _ _ _ _ => Some tt;
     model_check_f1_em := fun _ _ _ _ _ _ _ => Some (PyFloat "0.0", PyFloat "0.0");
     get_json_data := fun _ => Some tt;
     generate_answers := fun _ _ _ => Some [("q1", "Paris")] |}.

Definition blank (f : Flags) : World :=
  {| FLAGS := f;
     environ := ∅;
     existing := ∅;
     checkpoint_state := ∅;
     trainable_variables := [];
     params := NoParams;
     trace := [] |}.

Definition named (name : string) (f : Flags) : Flags :=
  mkFlags (gpu f) (mode f) name (num_epochs f)
    (learning_rate f) (max_gradient_norm f) (dropout f) (batch_size f)
    (hidden_size f) (context_len f) (question_len f) (embedding_size f)
    (print_every f) (save_every f) (eval_every f) (keep f)
    (train_dir f) (glove_path f) (data_dir f) (ckpt_load_dir f)
    (json_in_path f) (json_out_path f).

Definition in_mode (m : string) (f : Flags) : Flags :=
  mkFlags (gpu f) m (experiment_name f) (num_epochs f)
    (learning_rate f) (max_gradient_norm f) (dropout f) (batch_size f)
    (hidden_size f) (context_len f) (question_len f) (embedding_size f)
    (print_every f) (save_every f) (eval_every f) (keep f)
    (train_dir f) (glove_path f) (data_dir f) (ckpt_load_dir f)
    (json_in_path f) (json_out_path f).

Definition eval_paths (ckpt json_in : string) (f : Flags) : Flags :=
  mkFlags (gpu f) (mode f) (experiment_name f) (num_epochs f)
    (learning_rate f) (max_gradient_norm f) (dropout f) (batch_size f)
    (hidden_size f) (context_len f) (question_len f) (embedding_size f)
    (print_every f) (save_every f) (eval_every f) (keep f)
    (train_dir f) (glove_path f) (data_dir f) ckpt json_in
    (json_out_path f).

Definition with_checkpoint (dir path : string) (files : list string)
    (w : World) : World :=
  mkWorld (FLAGS w) (environ w) (list_to_set files ∪ existing w)
    (<[dir := path]> (checkpoint_state w)) (trainable_variables w)
    (params w) (trace w).

(** ** Vocabulary of the properties *)


(** What a run added to the trace. *)
Definition new_events (before after_ : World) : list event :=
  drop (List.length (trace before)) (trace after_).



(** The mode whose branch of [main] performs an action, for the actions
    that only one branch performs. *)
Definition branch_of (e : event) : option string :=
  match e with
  | Makedirs _ | LogToFile _ | DumpFlags _ _ | Train _ _ _ _ _ _ =>
      Some "train"
  | CheckF1EM _ _ _ _ _ _ => Some "show_examples"
  | GetJsonData _ | GenerateAnswers | WriteAnswers _ _ =>
      Some "official_eval"
  | _ => None
  end.












(** Two configurations that differ at most in [train_dir] and
    [glove_path]. *)
Definition same_except_paths (f g : Flags) : Prop :=
  set_train_dir (train_dir g) (set_glove_path (glove_path g) f) = g.

(** The values lines 84 and 90 compute for the two paths, and the
    configuration once both are stored. *)
Definition resolved_train_dir (P : Platform) (f : Flags) : string :=
  Py.or_else (train_dir f)
    (Py.path_join (EXPERIMENTS_DIR P) (experiment_name f)).

Definition resolved_glove_path (P : Platform) (f : Flags) : string :=
  Py.or_else (glove_path f)
    (Py.path_join (DEFAULT_DATA_DIR P)
       ("glove.6B." +:+ Py.str_int (embedding_size f) +:+ "d.txt")).

Definition resolved_flags (P : Platform) (f : Flags) : Flags :=
  set_glove_path (resolved_glove_path P f)
    (set_train_dir (resolved_train_dir P f) f).

(** What [main] does before it looks at the mode, when nothing raises. *)
Definition preamble (P : Platform) (f : Flags) : list event :=
  [Print ("This code was developed and tested on TensorFlow 1.8.0. Your TensorFlow version: " +:+
          tf_version P);
   GetGlove (resolved_glove_path P f) (embedding_size f);
   NewQAModel (resolved_flags P f);
   TfConfigProto].

(** ** Vocabulary of the further properties *)

(** The three checks of lines 71 to 83, as one test: one positional
    argument, Python 3, and a name or a directory unless the mode is
    [official_eval]. *)
Definition passes_checks (P : Platform) (argv : list string) (f : Flags)
    : bool :=
  (List.length argv =? 1)%nat && (version_major P =? 3) &&
  negb (negb (Py.truthy (experiment_name f)) &&
        negb (Py.truthy (train_dir f)) &&
        negb (String.eqb (mode f) "official_eval")).

Definition is_get_glove (e : event) : bool :=
  match e with
  | GetGlove _ _ => true
  | _ => false
  end.

Definition is_print (e : event) : bool :=
  match e with
  | Print _ => true
  | _ => false
  end.

Definition is_any_makedirs (e : event) : bool :=
  match e with
  | Makedirs _ => true
  | _ => false
  end.

(** Actions that take the session, or the parameters that live in it. *)
Definition needs_session (e : event) : bool :=
  match e with
  | GetCheckpointState _ | GfileExists _ | SaverRestore _
  | RunGlobalVariablesInitializer | Train _ _ _ _ _ _
  | CheckF1EM _ _ _ _ _ _ | GenerateAnswers | WriteAnswers _ _ => true
  | _ => false
  end.

Inductive session_phase :=
  | BeforeSession
  | InSession
  | AfterSession.

(** A trace keeps the session discipline when it opens at most one session,
    closes the one it opens, does nothing that needs the session outside of
    it, and does nothing at all after closing it. *)
Fixpoint session_scoped_from (phase : session_phase) (t : list event)
    : bool :=
  match t with
  | [] =>
      match phase with
      | InSession => false
      | _ => true
      end
  | e :: rest =>
      match phase with
      | BeforeSession =>
          match e with
          | SessionEnter => session_scoped_from InSession rest
          | SessionExit => false
          | _ => negb (needs_session e) &&
                 session_scoped_from BeforeSession rest
          end
      | InSession =>
          match e with
          | SessionExit => session_scoped_from AfterSession rest
          | SessionEnter => false
          | _ => session_scoped_from InSession rest
          end
      | AfterSession => false
      end
  end.

Definition session_scoped (t : list event) : bool :=
  session_scoped_from BeforeSession t.


(** [FLAGS] with another [--data_dir]. *)
Definition set_data_dir (v : string) (f : Flags) : Flags :=
  mkFlags (gpu f) (mode f) (experiment_name f) (num_epochs f)
    (learning_rate f) (max_gradient_norm f) (dropout f) (batch_size f)
    (hidden_size f) (context_len f) (question_len f) (embedding_size f)
    (print_every f) (save_every f) (eval_every f) (keep f)
    (train_dir f) (glove_path f) v (ckpt_load_dir f) (json_in_path f)
    (json_out_path f).

(** Collaborators whose embedding loader raises, and collaborators whose
    training loop raises. *)
Definition stub_without_embeddings : Collaborators :=
  {| Embeddings := unit;
     Model := unit;
     EvalData := unit;
     get_glove := fun _ _ => None;
     QAModel := fun _ _ => Some tt;
     model_variables := fun _ => [];
     model_train := fun _ _ _ _ _ _ _ => Some tt;
     model_check_f1_em := fun _ _ _ _ _ _ _ => Some (PyFloat "0.0", PyFloat "0.0");
     get_json_data := fun _ => Some tt;
     generate_answers := fun _ _ _ => Some [] |}.


(** ** Weakest preconditions

    [wp m Q w]: running [m] from [w] ends in an outcome and a world that
    satisfy [Q]. *)
Definition wp {A} (m : M A) (Q : result A -> World -> Prop) (w : World)
    : Prop :=
  Q (outcome m w) (after m w).

(** * Properties *)

Local Open Scope list_scope.

(** ** Library facts *)

Example path_join_relative_name :
  Py.path_join "experiments" "baseline" = "experiments/baseline".
Proof. reflexivity. Qed.

Example path_join_absolute_name :
  Py.path_join "experiments" "/tmp/run" = "/tmp/run".
Proof. reflexivity. Qed.

Example path_join_empty_name : Py.path_join "experiments" "" = "experiments/".
Proof. reflexivity. Qed.

Example repr_list_argv :
  Py.repr_list ["main.py"; "--oops"] = "['main.py', '--oops']".
Proof. vm_compute. reflexivity. Qed.

Example str_int_negative : Py.str_int (-50) = "-50".
Proof. vm_compute. reflexivity. Qed.

Example num_elements_matrix : Py.num_elements [400; 200] = 80000.
Proof. reflexivity. Qed.

Lemma truthy_false s : Py.truthy s = false <-> s = "".
Proof. destruct s; simpl; split; congruence. Qed.

Lemma truthy_true s : Py.truthy s = true <-> s <> "".
Proof. destruct s; simpl; split; congruence. Qed.

Lemma or_else_given a b : a <> "" -> Py.or_else a b = a.
Proof. intros H. unfold Py.or_else. apply truthy_true in H. now rewrite H. Qed.

Lemma or_else_empty b : Py.or_else "" b = b.
Proof. reflexivity. Qed.

Lemma append_cons (x : ascii) (a b : string) :
  String x a +:+ b = String x (a +:+ b).
Proof. reflexivity. Qed.

Lemma append_assoc (a b c : string) : (a +:+ b) +:+ c = a +:+ (b +:+ c).
Proof.
  induction a as [|x a IH]; [reflexivity |].
  rewrite !append_cons. now f_equal.
Qed.



Lemma endswith_sep_append (a b : string) :
  b <> "" -> Py.endswith_sep (a +:+ b) = Py.endswith_sep b.
Proof.
  intros Hb. induction a as [|x a IH]; [reflexivity |].
  rewrite append_cons. cbn [Py.endswith_sep]. rewrite IH.
  destruct (a +:+ b) eqn:E; [| reflexivity].
  destruct a; [contradiction | discriminate].
Qed.

Lemma truthy_append (a b : string) : b <> "" -> Py.truthy (a +:+ b) = true.
Proof. intros Hb. destruct a; [now apply truthy_true | reflexivity]. Qed.

(** A relative second component is appended to the first, after at most a
    separator. *)
Lemma path_join_relative (a b : string) :
  Py.startswith_sep b = false ->
  Py.path_join a b = a +:+ b \/ Py.path_join a b = a +:+ "/" +:+ b.
Proof.
  intros Hb. unfold Py.path_join. rewrite Hb.
  destruct (negb (Py.truthy a) || Py.endswith_sep a); auto.
Qed.

(** With a first component that is not empty and does not end in a
    separator, the join puts exactly one separator between the two. *)
Lemma path_join_plain (a b : string) :
  Py.startswith_sep b = false -> a <> "" -> Py.endswith_sep a = false ->
  Py.path_join a b = a +:+ "/" +:+ b.
Proof.
  intros Hb Ha He. unfold Py.path_join.
  apply truthy_true in Ha. now rewrite Hb, Ha, He.
Qed.



(** The two directories of lines 39 and 40 end in their own name. *)
Lemma main_subdir_shape (P : Platform) (name : string) :
  Py.startswith_sep name = false -> name <> "" ->
  Py.endswith_sep name = false ->
  exists prefix,
    Py.path_join (MAIN_DIR P) name = prefix +:+ name /\
    forall rest, Py.startswith_sep rest = false ->
      Py.path_join (Py.path_join (MAIN_DIR P) name) rest =
      prefix +:+ name +:+ "/" +:+ rest.
Proof.
  intros Hs Hne He.
  destruct (path_join_relative (MAIN_DIR P) name Hs) as [E | E].
  - exists (MAIN_DIR P). split; [exact E |]. intros rest Hr. rewrite E.
    rewrite path_join_plain; auto.
    + now rewrite append_assoc.
    + intros H. apply truthy_false in H. now rewrite truthy_append in H.
    + now rewrite endswith_sep_append.
  - exists (MAIN_DIR P +:+ "/"). split; [now rewrite E, append_assoc |].
    intros rest Hr. rewrite E. rewrite path_join_plain; auto.
    + now rewrite !append_assoc.
    + intros H. apply truthy_false in H.
      rewrite truthy_append in H; [discriminate |].
      destruct name; [contradiction | discriminate].
    + rewrite endswith_sep_append; [| destruct name; [contradiction | discriminate]].
      change ("/" +:+ name) with (String "/" name).
      destruct name; [contradiction | exact He].
Qed.

(** ** Rules of the weakest-precondition calculus *)

Section Rules.

Context {A B : Type}.

Lemma wp_ret (a : A) Q w : Q (Ok a) w -> wp (ret a) Q w.
Proof. exact (fun H => H). Qed.

Lemma wp_raise e (Q : result A -> World -> Prop) w :
  Q (Raise e) w -> wp (raise e) Q w.
Proof. exact (fun H => H). Qed.

Lemma wp_bind (m : M A) (k : A -> M B) Q w :
  wp m (fun r w' =>
          match r with
          | Ok a => wp (k a) Q w'
          | Raise e => Q (Raise e) w'
          end) w ->
  wp (bind m k) Q w.
Proof.
  unfold wp, outcome, after, bind. destruct (m w) as [[a|e] w']; simpl; auto.
Qed.

Lemma wp_finally (body : M A) (cleanup : M unit) Q w :
  wp body (fun r w' =>
             wp cleanup (fun c w'' =>
                           match c with
                           | Ok _ => Q r w''
                           | Raise e => Q (Raise e) w''
                           end) w') w ->
  wp (finally body cleanup) Q w.
Proof.
  unfold wp, outcome, after, finally.
  destruct (body w) as [r w']; simpl.
  destruct (cleanup w') as [[u|e] w'']; simpl; auto.
Qed.

Lemma wp_call callee (o : option A) Q w :
  (forall a, o = Some a -> Q (Ok a) w) ->
  (o = None -> Q (Raise (Propagated callee)) w) ->
  wp (call callee o) Q w.
Proof.
  intros Hsome Hnone. destruct o as [a|]; unfold wp, outcome, after; simpl.
  - now apply Hsome.
  - now apply Hnone.
Qed.

Lemma wp_mono (m : M A) (Q Q' : result A -> World -> Prop) w :
  wp m Q w -> (forall r w', Q r w' -> Q' r w') -> wp m Q' w.
Proof. unfold wp. auto. Qed.

End Rules.

(** The rules for the primitives take the new world, or the value read, in
    a form chosen by the caller, so that worlds stay in constructor form
    along an execution. *)
Lemma wp_modify f (Q : result unit -> World -> Prop) w w' :
  f w = w' -> Q (Ok tt) w' -> wp (modify f) Q w.
Proof. intros <-. exact (fun H => H). Qed.

Lemma wp_emit e (Q : result unit -> World -> Prop) w w' :
  with_trace (trace w ++ [e]) w = w' -> Q (Ok tt) w' -> wp (emit e) Q w.
Proof. intros <-. exact (fun H => H). Qed.

Lemma wp_gets {A} (f : World -> A) Q w v :
  f w = v -> Q (Ok v) w -> wp (gets f) Q w.
Proof. intros <-. exact (fun H => H). Qed.

(** ** Traces *)

Lemma new_events_app w w' l :
  trace w' = trace w ++ l -> new_events w w' = l.
Proof. unfold new_events. intros ->. apply drop_app_length. Qed.

(** Brings [((t ++ [a]) ++ [b]) ++ ...] to [t ++ [a; b; ...]]. *)
Ltac flatten_trace :=
  repeat rewrite <- app_assoc; simpl app.


(** ** The checkpoint initializer *)



Example initialize_model_restores_v2_checkpoint :
  let w := with_checkpoint "ckpts" "ckpts/qa.ckpt-500"
             ["ckpts/qa.ckpt-500.index"] (blank (default_flags here)) in
  outcome (initialize_model stub tt "ckpts" true) w = Ok tt /\
  params (after (initialize_model stub tt "ckpts" true) w) =
    RestoredFrom "ckpts/qa.ckpt-500".
Proof. vm_compute. split; reflexivity. Qed.

Example initialize_model_stale_checkpoint_file :
  let w := with_checkpoint "ckpts" "ckpts/qa.ckpt-500" []
             (blank (default_flags here)) in
  outcome (initialize_model stub tt "ckpts" true) w =
    Raise (Exception "There is no saved checkpoint at ckpts") /\
  outcome (initialize_model stub tt "ckpts" false) w = Ok tt.
Proof. vm_compute. split; reflexivity. Qed.

(** ** Symbolic execution

    [wp_step] applies the rule for the computation at the head of the goal.
    A condition the context does not decide is split; a branch that
    contradicts the context is dropped. *)

Ltac world_simpl :=
  unfold with_FLAGS, with_environ, with_existing, with_trainable_variables,
    with_params, with_trace;
  cbn [FLAGS environ existing checkpoint_state trainable_variables params
       trace with_FLAGS with_environ with_existing with_trainable_variables
       with_params with_trace
       gpu mode experiment_name num_epochs learning_rate max_gradient_norm
       dropout batch_size hidden_size context_len question_len embedding_size
       print_every save_every eval_every keep train_dir glove_path data_dir
       ckpt_load_dir json_in_path json_out_path set_train_dir set_glove_path].

Ltac wp_unfold :=
  unfold when, print, os_makedirs, create_path, os_environ_set, flag,
    os_path_exists, tf_train_get_checkpoint_state, tf_trainable_variables,
    tf_gfile_Exists, saver_restore, run_global_variables_initializer,
    with_session, assign_flag.

Ltac absurd_branch E :=
  try (exfalso;
       repeat match goal with
              | H : _ = _ |- _ =>
                  tryif constr_eq H E then fail else rewrite H in E
              end;
       cbn in E; rewrite ?andb_false_r, ?orb_true_r in E; cbn in E;
       congruence).

Ltac wp_step :=
  lazymatch goal with
  | |- wp (bind _ _) _ _ => apply wp_bind
  | |- wp (ret _) _ _ => apply wp_ret
  | |- wp (raise _) _ _ => apply wp_raise
  | |- wp (modify _) _ _ =>
      eapply wp_modify; [cbv beta; world_simpl; reflexivity | ]
  | |- wp (emit _) _ _ =>
      eapply wp_emit; [world_simpl; reflexivity | ]
  | |- wp (gets _) _ _ =>
      eapply wp_gets; [cbv beta; world_simpl; reflexivity | ]
  | |- wp (call _ ?o) _ _ =>
      let E := fresh "Hcall" in
      destruct o eqn:E; [apply wp_ret | apply wp_raise]; absurd_branch E
  | |- wp (finally _ _) _ _ => apply wp_finally
  | |- wp (if ?c then _ else _) _ _ =>
      let E := fresh "Hcond" in
      destruct c eqn:E; absurd_branch E
  | |- wp (match ?c with Some _ => _ | None => _ end) _ _ =>
      let E := fresh "Hopt" in
      destruct c eqn:E; absurd_branch E
  | |- wp _ _ _ => progress wp_unfold
  end; cbv beta iota zeta.

Ltac wp_run := repeat wp_step.

(** ** What every run of [main] leaves alone *)

Ltac start_main :=
  unfold main, train_branch, show_examples_branch, official_eval_branch,
    initialize_model.

Ltac mode_facts :=
  repeat match goal with
         | H : (_ =? _)%string = true |- _ => apply String.eqb_eq in H
         end.

Ltac own_branch :=
  repeat constructor;
  let b := fresh "b" in
  let Hb := fresh "Hb" in
  intros b Hb; cbn in Hb; try discriminate Hb;
  injection Hb as <-; mode_facts; congruence.

Lemma same_except_paths_refl f : same_except_paths f f.
Proof. now destruct f. Qed.

Lemma same_except_paths_both f v v' :
  same_except_paths f (set_glove_path v' (set_train_dir v f)).
Proof. now destruct f. Qed.

Lemma same_except_paths_resolved P f :
  same_except_paths f (resolved_flags P f).
Proof. apply same_except_paths_both. Qed.

Lemma resolved_flags_given P f :
  train_dir f <> "" -> glove_path f <> "" -> resolved_flags P f = f.
Proof.
  intros Hdir Hglove. unfold resolved_flags, resolved_train_dir,
    resolved_glove_path.
  rewrite (or_else_given _ _ Hdir).
  cbn [glove_path embedding_size set_train_dir].
  rewrite (or_else_given _ _ Hglove). now destruct f.
Qed.

Ltac frame_leaf :=
  cbn [trace environ FLAGS];
  split;
  [ first [ exists []; split; [now rewrite app_nil_r | constructor]
          | eexists; split; [flatten_trace; reflexivity | own_branch] ]
  | split;
    [ reflexivity
    | first [ left; reflexivity | right; reflexivity ] ] ].

(** Every run of [main] only appends to the trace, and what it appends of
    branch-specific actions belongs to the branch of [FLAGS.mode]; it leaves
    [os.environ] alone; and it leaves [FLAGS] either as it found it (when a
    check of lines 71 to 83 raised) or with the two paths of lines 84 and 90
    stored. *)
Lemma main_frame P C argv w :
  (exists l, trace (after (main P C argv) w) = trace w ++ l /\
             Forall (fun e => forall b, branch_of e = Some b -> b = mode (FLAGS w)) l) /\
  environ (after (main P C argv) w) = environ w /\
  (FLAGS (after (main P C argv) w) = FLAGS w \/
   FLAGS (after (main P C argv) w) = resolved_flags P (FLAGS w)).
Proof.
  destruct w as [F env ex cs tv pr tr].
  change (wp (main P C argv)
            (fun _ w' =>
               (exists l, trace w' = tr ++ l /\
                  Forall (fun e => forall b, branch_of e = Some b -> b = mode F) l) /\
               environ w' = env /\
               (FLAGS w' = F \/ FLAGS w' = resolved_flags P F))
            (mkWorld F env ex cs tv pr tr)).
  start_main.
  wp_run; frame_leaf.
Qed.

(** Once the three checks of lines 71 to 83 have passed, both paths are
    stored in [FLAGS], whatever happens afterwards. *)
Lemma main_flags_after P C argv w :
  List.length argv = 1%nat ->
  version_major P = 3 ->
  experiment_name (FLAGS w) <> "" \/ train_dir (FLAGS w) <> "" \/
    mode (FLAGS w) = "official_eval" ->
  FLAGS (after (main P C argv) w) = resolved_flags P (FLAGS w).
Proof.
  destruct w as [F env ex cs tv pr tr]. cbn [FLAGS].
  intros Hargv Hver Hgiven.
  change (wp (main P C argv)
            (fun _ w' => FLAGS w' = resolved_flags P F)
            (mkWorld F env ex cs tv pr tr)).
  start_main.
  destruct Hgiven as [Hname | [Hdir | Hmode]];
    [apply truthy_true in Hname | apply truthy_true in Hdir |];
    wp_run; reflexivity.
Qed.

(** ** The two default paths *)

(** C6. When [--train_dir] is empty, [main] stores the join of the
    experiments directory and the experiment name in [FLAGS.train_dir],
    which for a relative name reads [.../experiments/{experiment_name}]; a
    given [--train_dir] is kept.  The run is one that gets to line 84: a
    single positional argument, Python 3, and a name or a directory given
    unless the mode is [official_eval]. *)
Theorem train_dir_default (P : Platform) (C : Collaborators)
    (argv : list string) (w : World) :
  List.length argv = 1%nat ->
  version_major P = 3 ->
  experiment_name (FLAGS w) <> "" \/ train_dir (FLAGS w) <> "" \/
    mode (FLAGS w) = "official_eval" ->
  let final := FLAGS (after (main P C argv) w) in
  (train_dir (FLAGS w) = "" ->
   train_dir final =
     Py.path_join (EXPERIMENTS_DIR P) (experiment_name (FLAGS w)) /\
   (Py.startswith_sep (experiment_name (FLAGS w)) = false ->
    exists prefix,
      EXPERIMENTS_DIR P = prefix +:+ "experiments" /\
      train_dir final =
        prefix +:+ "experiments" +:+ "/" +:+ experiment_name (FLAGS w))) /\
  (train_dir (FLAGS w) <> "" -> train_dir final = train_dir (FLAGS w)).
Proof.
  intros Hargv Hver Hgiven final. subst final.
  rewrite (main_flags_after P C argv w Hargv Hver Hgiven).
  unfold resolved_flags. cbn [train_dir set_glove_path set_train_dir].
  unfold resolved_train_dir. split.
  - intros ->. rewrite or_else_empty. split; [reflexivity |].
    intros Hrel.
    destruct (main_subdir_shape P "experiments") as [prefix [Hdir Hjoin]];
      [reflexivity | discriminate | reflexivity |].
    exists prefix. split; [exact Hdir |].
    unfold EXPERIMENTS_DIR. now apply Hjoin.
  - intros Hne. now apply or_else_given.
Qed.

Lemma train_dir_default_witness :
  let w := blank (named "baseline" (default_flags here)) in
  (List.length ["main.py"] = 1%nat /\
   version_major here = 3 /\
   experiment_name (FLAGS w) <> "") /\
  train_dir (FLAGS w) = "" /\
  train_dir (FLAGS (after (main here stub ["main.py"]) w)) =
    "./experiments/baseline".
Proof.
  intros w.
  assert (Hname : experiment_name (FLAGS w) <> "") by discriminate.
  split; [split; [reflexivity | split; [reflexivity | exact Hname]] |].
  split; [reflexivity |].
  destruct (train_dir_default here stub ["main.py"] w eq_refl eq_refl
              (or_introl Hname)) as [Hempty _].
  destruct (Hempty eq_refl) as [Hjoin _].
  exact Hjoin.
Defined.

(** C7. When [--glove_path] is empty, [main] stores
    [data/glove.6B.{embedding_size}d.txt], under the repository root and
    with the embedding size in decimal, in [FLAGS.glove_path]; a given
    [--glove_path] is kept.  The run is one that gets to line 90. *)
Theorem glove_path_default (P : Platform) (C : Collaborators)
    (argv : list string) (w : World) :
  List.length argv = 1%nat ->
  version_major P = 3 ->
  experiment_name (FLAGS w) <> "" \/ train_dir (FLAGS w) <> "" \/
    mode (FLAGS w) = "official_eval" ->
  let final := FLAGS (after (main P C argv) w) in
  let file := "glove.6B." +:+ Py.str_int (embedding_size (FLAGS w)) +:+ "d.txt" in
  (glove_path (FLAGS w) = "" ->
   glove_path final = Py.path_join (DEFAULT_DATA_DIR P) file /\
   exists prefix,
     DEFAULT_DATA_DIR P = prefix +:+ "data" /\
     glove_path final = prefix +:+ "data" +:+ "/" +:+ file) /\
  (glove_path (FLAGS w) <> "" -> glove_path final = glove_path (FLAGS w)).
Proof.
  intros Hargv Hver Hgiven final file. subst final file.
  rewrite (main_flags_after P C argv w Hargv Hver Hgiven).
  unfold resolved_flags. cbn [glove_path set_glove_path].
  unfold resolved_glove_path. split.
  - intros ->. rewrite or_else_empty. split; [reflexivity |].
    destruct (main_subdir_shape P "data") as [prefix [Hdir Hjoin]];
      [reflexivity | discriminate | reflexivity |].
    exists prefix. split; [exact Hdir |].
    unfold DEFAULT_DATA_DIR. now apply Hjoin.
  - intros Hne. now apply or_else_given.
Qed.

Lemma glove_path_default_witness :
  let w := blank (named "baseline" (default_flags here)) in
  (List.length ["main.py"] = 1%nat /\
   version_major here = 3 /\
   experiment_name (FLAGS w) <> "") /\
  glove_path (FLAGS w) = "" /\
  glove_path (FLAGS (after (main here stub ["main.py"]) w)) =
    "./data/glove.6B.100d.txt".
Proof.
  intros w.
  assert (Hname : experiment_name (FLAGS w) <> "") by discriminate.
  split; [split; [reflexivity | split; [reflexivity | exact Hname]] |].
  split; [reflexivity |].
  destruct (glove_path_default here stub ["main.py"] w eq_refl eq_refl
              (or_introl Hname)) as [Hempty _].
  destruct (Hempty eq_refl) as [Hjoin _].
  rewrite Hjoin. vm_compute. reflexivity.
Defined.

(** ** The checks at the top of [main] *)

(** C3. Outside [official_eval], a run with neither [--experiment_name]
    nor [--train_dir] ends in an exception, and when it gets to line 82 (a
    single positional argument, Python 3) the exception is the one that
    asks for either flag; in [official_eval] mode that exception is never
    raised. *)
Theorem main_needs_name_or_train_dir (P : Platform) (C : Collaborators)
    (argv : list string) (w : World) :
  let missing :=
    Exception "You need to specify either --experiment_name or --train_dir" in
  (experiment_name (FLAGS w) = "" -> train_dir (FLAGS w) = "" ->
   mode (FLAGS w) <> "official_eval" ->
   (exists e, outcome (main P C argv) w = Raise e) /\
   (List.length argv = 1%nat -> version_major P = 3 ->
    outcome (main P C argv) w = Raise missing)) /\
  (mode (FLAGS w) = "official_eval" ->
   outcome (main P C argv) w <> Raise missing).
Proof.
  intros missing. subst missing.
  destruct w as [F env ex cs tv pr tr]. cbn [FLAGS].
  split.
  - intros Hname Hdir Hmode. apply String.eqb_neq in Hmode. split.
    + change (wp (main P C argv) (fun r _ => exists e, r = Raise e)
                (mkWorld F env ex cs tv pr tr)).
      start_main. wp_run; eexists; reflexivity.
    + intros Hargv Hver.
      change (wp (main P C argv)
                (fun r _ => r = Raise (Exception
                   "You need to specify either --experiment_name or --train_dir"))
                (mkWorld F env ex cs tv pr tr)).
      start_main. wp_run; reflexivity.
  - intros Hmode.
    change (wp (main P C argv)
              (fun r _ => r <> Raise (Exception
                 "You need to specify either --experiment_name or --train_dir"))
              (mkWorld F env ex cs tv pr tr)).
    start_main. wp_run; discriminate.
Qed.

Lemma main_needs_name_or_train_dir_witness :
  let missing :=
    Exception "You need to specify either --experiment_name or --train_dir" in
  let w := blank (default_flags here) in
  let w_eval := blank (in_mode "official_eval" (default_flags here)) in
  (experiment_name (FLAGS w) = "" /\ train_dir (FLAGS w) = "" /\
   mode (FLAGS w) <> "official_eval" /\
   List.length ["main.py"] = 1%nat /\ version_major here = 3 /\
   mode (FLAGS w_eval) = "official_eval") /\
  outcome (main here stub ["main.py"]) w = Raise missing /\
  outcome (main here stub ["main.py"]) w_eval <> Raise missing.
Proof.
  intros missing w w_eval.
  assert (Hmode : mode (FLAGS w) <> "official_eval") by discriminate.
  split.
  { split; [reflexivity |]. split; [reflexivity |]. split; [exact Hmode |].
    split; [reflexivity |]. split; reflexivity. }
  split.
  - destruct (main_needs_name_or_train_dir here stub ["main.py"] w)
      as [Hraise _].
    destruct (Hraise eq_refl eq_refl Hmode) as [_ Hexact].
    exact (Hexact eq_refl eq_refl).
  - destruct (main_needs_name_or_train_dir here stub ["main.py"] w_eval)
      as [_ Hnever].
    exact (Hnever eq_refl).
Defined.

(** C10. Under an interpreter whose major version is not 3 every run of
    [main] ends in an exception; when the run gets to line 75 the message
    reads "You must use Python 2" followed by the major version it runs on,
    and nothing else has happened.  Under Python 3 that exception is never
    raised. *)
Theorem main_python_version_check (P : Platform) (C : Collaborators)
    (argv : list string) (w : World) :
  let wrong_version v :=
    Exception ("ERROR: You must use Python 2 but you are running Python " +:+ v) in
  (version_major P <> 3 ->
   (exists e, outcome (main P C argv) w = Raise e) /\
   (List.length argv = 1%nat ->
    outcome (main P C argv) w =
      Raise (wrong_version (Py.str_int (version_major P))) /\
    after (main P C argv) w = w)) /\
  (version_major P = 3 ->
   forall v, outcome (main P C argv) w <> Raise (wrong_version v)).
Proof.
  intros wrong_version. subst wrong_version.
  destruct w as [F env ex cs tv pr tr].
  split.
  - intros Hver. apply Z.eqb_neq in Hver. split.
    + change (wp (main P C argv) (fun r _ => exists e, r = Raise e)
                (mkWorld F env ex cs tv pr tr)).
      start_main. wp_run; eexists; reflexivity.
    + intros Hargv.
      change (wp (main P C argv)
                (fun r w' =>
                   r = Raise (Exception
                         ("ERROR: You must use Python 2 but you are running Python " +:+
                          Py.str_int (version_major P))) /\
                   w' = mkWorld F env ex cs tv pr tr)
                (mkWorld F env ex cs tv pr tr)).
      start_main. wp_run; split; reflexivity.
  - intros Hver v.
    change (wp (main P C argv)
              (fun r _ =>
                 r <> Raise (Exception
                        ("ERROR: You must use Python 2 but you are running Python " +:+ v)))
              (mkWorld F env ex cs tv pr tr)).
    start_main. wp_run; discriminate.
Qed.

Lemma main_python_version_check_witness :
  let w := blank (named "baseline" (default_flags python2)) in
  (version_major python2 <> 3 /\ List.length ["main.py"] = 1%nat /\
   version_major here = 3) /\
  outcome (main python2 stub ["main.py"]) w =
    Raise (Exception "ERROR: You must use Python 2 but you are running Python 2") /\
  outcome (main here stub ["main.py"]) w <>
    Raise (Exception "ERROR: You must use Python 2 but you are running Python 3").
Proof.
  intros w.
  assert (Hver : version_major python2 <> 3) by discriminate.
  split; [split; [exact Hver | split; reflexivity] |].
  split.
  - destruct (main_python_version_check python2 stub ["main.py"] w)
      as [Hwrong _].
    destruct (Hwrong Hver) as [_ Hexact].
    destruct (Hexact eq_refl) as [Hout _].
    rewrite Hout. vm_compute. reflexivity.
  - destruct (main_python_version_check here stub ["main.py"] w)
      as [_ Hnever].
    exact (Hnever eq_refl "3").
Defined.

(** ** Mode dispatch *)

Ltac oracle_facts :=
  unfold resolved_flags, resolved_glove_path, resolved_train_dir in *.

Ltac trace_leaf :=
  unfold new_events; cbn [trace]; flatten_trace;
  rewrite drop_app_length.

(** C5. With a mode other than [train], [show_examples] and
    [official_eval] every run of [main] ends in an exception; when the run
    gets to the dispatch (the checks pass, the embeddings load and the model
    is built) the exception names the mode, and no branch has run.  The
    branches exclude each other: every action that belongs to one branch
    occurs only in a run whose mode is that branch's. *)
Theorem main_rejects_unknown_mode (P : Platform) (C : Collaborators)
    (argv : list string) (w : World) :
  let F := FLAGS w in
  (mode F <> "train" -> mode F <> "show_examples" ->
   mode F <> "official_eval" ->
   (exists e, outcome (main P C argv) w = Raise e) /\
   (forall emb m,
      List.length argv = 1%nat -> version_major P = 3 ->
      experiment_name F <> "" \/ train_dir F <> "" ->
      get_glove C (resolved_glove_path P F) (embedding_size F) = Some emb ->
      QAModel C (resolved_flags P F) emb = Some m ->
      outcome (main P C argv) w =
        Raise (Exception ("Unexpected value of FLAGS.mode: " +:+ mode F)) /\
      new_events w (after (main P C argv) w) = preamble P F)) /\
  Forall (fun e => forall b, branch_of e = Some b -> b = mode F)
    (new_events w (after (main P C argv) w)).
Proof.
  intros F. subst F. split.
  - destruct w as [F env ex cs tv pr tr]. cbn [FLAGS].
    intros Htrain Hshow Heval.
    apply String.eqb_neq in Htrain, Hshow, Heval. split.
    + change (wp (main P C argv) (fun r _ => exists e, r = Raise e)
                (mkWorld F env ex cs tv pr tr)).
      start_main. wp_run; eexists; reflexivity.
    + intros emb m Hargv Hver Hgiven Hglove Hmodel.
      change (wp (main P C argv)
                (fun r w' =>
                   r = Raise (Exception ("Unexpected value of FLAGS.mode: " +:+ mode F)) /\
                   new_events (mkWorld F env ex cs tv pr tr) w' = preamble P F)
                (mkWorld F env ex cs tv pr tr)).
      start_main. oracle_facts.
      destruct Hgiven as [Hname | Hdir];
        [apply truthy_true in Hname | apply truthy_true in Hdir];
        wp_run; (split; [reflexivity | trace_leaf; reflexivity]).
  - destruct (main_frame P C argv w) as [[l [Htrace Hown]] _].
    now rewrite (new_events_app _ _ _ Htrace).
Qed.

Lemma main_rejects_unknown_mode_witness :
  let w := blank (in_mode "evaluate" (named "baseline" (default_flags here))) in
  (mode (FLAGS w) <> "train" /\ mode (FLAGS w) <> "show_examples" /\
   mode (FLAGS w) <> "official_eval" /\
   List.length ["main.py"] = 1%nat /\ version_major here = 3 /\
   experiment_name (FLAGS w) <> "") /\
  outcome (main here stub ["main.py"]) w =
    Raise (Exception "Unexpected value of FLAGS.mode: evaluate").
Proof.
  intros w.
  assert (Htrain : mode (FLAGS w) <> "train") by discriminate.
  assert (Hshow : mode (FLAGS w) <> "show_examples") by discriminate.
  assert (Heval : mode (FLAGS w) <> "official_eval") by discriminate.
  assert (Hname : experiment_name (FLAGS w) <> "") by discriminate.
  split.
  { split; [exact Htrain |]. split; [exact Hshow |]. split; [exact Heval |].
    split; [reflexivity |]. split; [reflexivity | exact Hname]. }
  destruct (main_rejects_unknown_mode here stub ["main.py"] w) as [Hraise _].
  destruct (Hraise Htrain Hshow Heval) as [_ Hexact].
  destruct (Hexact tt tt eq_refl eq_refl (or_introl Hname) eq_refl eq_refl)
    as [Hout _].
  exact Hout.
Defined.




(** ** Train mode *)

Lemma wp_elim {A} (m : M A) (Q : result A -> World -> Prop) (w : World) :
  wp m Q w -> Q (outcome m w) (after m w).
Proof. exact (fun H => H). Qed.

(** Turns a goal about [outcome m w] and [after m w] into a [wp] goal. *)
Ltac by_wp m w :=
  let r := fresh "r" in
  let w' := fresh "w'" in
  set (r := outcome m w); set (w' := after m w);
  pattern r, w'; subst r w'; apply (wp_elim m).






(** ** The script *)

Ltac start_script :=
  unfold script, tf_app_run, imports; cbn [run_imports].

(** What the module-level statements and the main block do up to the call
    of [main]. *)
Lemma script_prefix P C argv0 parsed unparsed w :
  let w0 :=
    mkWorld parsed
      (<["CUDA_VISIBLE_DEVICES" := Py.str_int (gpu parsed)]> (environ w))
      (existing w) (checkpoint_state w) (trainable_variables w) (params w)
      (trace w ++
       map Import imports ++
       [LoggingBasicConfig; ParseKnownArgs;
        SetEnviron "CUDA_VISIBLE_DEVICES" (Py.str_int (gpu parsed));
        TfAppRun (argv0 :: unparsed)]) in
  outcome (script P C argv0 parsed unparsed) w =
    outcome (main P C (argv0 :: unparsed)) w0 /\
  after (script P C argv0 parsed unparsed) w =
    after (main P C (argv0 :: unparsed)) w0.
Proof.
  intros w0. subst w0. destruct w as [F env ex cs tv pr tr].
  by_wp (script P C argv0 parsed unparsed) (mkWorld F env ex cs tv pr tr).
  start_script. wp_run.
  unfold wp. cbn [trace environ existing checkpoint_state trainable_variables
                  params imports map].
  flatten_trace. split; reflexivity.
Qed.

(** C8, as the code has it. [FLAGS] is assigned once, from the parsed
    command line.  Afterwards [main] assigns [FLAGS.train_dir] and
    [FLAGS.glove_path], and nothing else: at the end of every run every other
    attribute has its parsed value, each of the two paths has either its
    parsed value or the value of line 84 or 90, and when both paths were
    given [FLAGS] is what the parser returned. *)
Theorem flags_change_only_in_paths (P : Platform) (C : Collaborators)
    (argv0 : string) (parsed : Flags) (unparsed : list string) (w : World) :
  let final := FLAGS (after (script P C argv0 parsed unparsed) w) in
  same_except_paths parsed final /\
  (final = parsed \/ final = resolved_flags P parsed) /\
  (train_dir parsed <> "" /\ glove_path parsed <> "" -> final = parsed).
Proof.
  intros final. subst final.
  destruct (script_prefix P C argv0 parsed unparsed w) as [_ ->].
  match goal with
  | |- context [after (main P C ?argv) ?w0] =>
      destruct (main_frame P C argv w0) as (_ & _ & Hflags)
  end.
  cbn [FLAGS] in Hflags.
  repeat split.
  - destruct Hflags as [-> | ->];
      [apply same_except_paths_refl | apply same_except_paths_resolved].
  - exact Hflags.
  - intros [Hdir Hglove]. destruct Hflags as [-> | ->]; [reflexivity |].
    now apply resolved_flags_given.
Qed.

Lemma flags_change_only_in_paths_witness :
  let parsed :=
    set_glove_path "vectors.txt" (set_train_dir "runs/a" (default_flags here)) in
  (train_dir parsed <> "" /\ glove_path parsed <> "") /\
  FLAGS (after (script here stub "main.py" parsed []) (blank (default_flags here))) =
    parsed.
Proof.
  intros parsed.
  assert (Hgiven : train_dir parsed <> "" /\ glove_path parsed <> "")
    by (split; discriminate).
  split; [exact Hgiven |].
  destruct (flags_change_only_in_paths here stub "main.py" parsed []
              (blank (default_flags here))) as (_ & _ & Hsame).
  exact (Hsame Hgiven).
Defined.

(** C8, as stated, fails: with [--experiment_name baseline] and no
    [--train_dir], [FLAGS] after the run differs from what the parser
    returned; its [train_dir] and [glove_path] have been assigned. *)
Lemma flags_mutated_after_parsing :
  let parsed := named "baseline" (default_flags here) in
  let final :=
    FLAGS (after (script here stub "main.py" parsed [])
             (blank (default_flags here))) in
  final <> parsed /\
  train_dir parsed = "" /\ train_dir final = "./experiments/baseline" /\
  glove_path parsed = "" /\ glove_path final = "./data/glove.6B.100d.txt".
Proof.
  intros parsed final. split.
  - intros Heq. apply (f_equal train_dir) in Heq. vm_compute in Heq.
    discriminate Heq.
  - vm_compute. repeat split; reflexivity.
Qed.



(** * Further properties of the entrypoint *)

#[local] Set Warnings "-clear-no-such-hyp".

(** Tactics for the leaves of an execution. *)
Ltac events_leaf :=
  unfold new_events; cbn [trace];
  first [ rewrite drop_all | flatten_trace; rewrite drop_app_length ].
Ltac bool_facts :=
  repeat match goal with
         | H : negb _ = true |- _ => apply negb_true_iff in H
         | H : negb _ = false |- _ => apply negb_false_iff in H
         end.
Ltac use_bool_facts :=
  repeat match goal with
         | H : ?b = true |- context [?b] => rewrite H
         | H : ?b = false |- context [?b] => rewrite H
         end.

(** ** The checkpoint initializer *)

(** X1. [initialize_model] (lines 43 to 66) touches the session and the
    console only: it leaves [FLAGS], [os.environ], the file system, the
    checkpoint records and the graph's variables as they are, and everything
    it does is a print or an action on the session. *)
Theorem initialize_model_touches_only_session (C : Collaborators)
    (model : Model C) (dir : string) (expect_exists : bool) (w : World) :
  let w' := after (initialize_model C model dir expect_exists) w in
  FLAGS w' = FLAGS w /\
  environ w' = environ w /\
  existing w' = existing w /\
  checkpoint_state w' = checkpoint_state w /\
  trainable_variables w' = trainable_variables w /\
  Forall (fun e => is_print e = true \/ needs_session e = true)
    (new_events w w').
Proof.
  intros w'. subst w'. destruct w as [F env ex cs tv pr tr].
  set (m := initialize_model C model dir expect_exists).
  set (w0 := mkWorld F env ex cs tv pr tr).
  change (wp m
            (fun _ w' =>
               FLAGS w' = F /\ environ w' = env /\ existing w' = ex /\
               checkpoint_state w' = cs /\ trainable_variables w' = tv /\
               Forall (fun e => is_print e = true \/ needs_session e = true)
                 (new_events w0 w'))
            w0).
  subst m w0. unfold initialize_model.
  wp_run;
    (repeat (split; [reflexivity |]); trace_leaf;
     repeat (apply List.Forall_cons;
             [first [left; reflexivity | right; reflexivity] |]);
     apply List.Forall_nil).
Qed.


(** ** The script and the checks *)

(** X3. The script changes one environment variable and no other:
    [os.environ] at the end of every run is what it was, with
    [CUDA_VISIBLE_DEVICES] set to the decimal text of [--gpu]. *)
Theorem script_sets_only_gpu_variable (P : Platform) (C : Collaborators)
    (argv0 : string) (parsed : Flags) (unparsed : list string) (w : World) :
  environ (after (script P C argv0 parsed unparsed) w) =
    <["CUDA_VISIBLE_DEVICES" := Py.str_int (gpu parsed)]> (environ w).
Proof.
  destruct (script_prefix P C argv0 parsed unparsed w) as [_ ->].
  match goal with
  | |- context [after (main P C ?argv) ?w0] =>
      destruct (main_frame P C argv w0) as (_ & Henv & _)
  end.
  exact Henv.
Qed.



Lemma path_join_nonempty (a b : string) : a <> "" -> Py.path_join a b <> "".
Proof.
  intros Ha. unfold Py.path_join.
  destruct (Py.startswith_sep b) eqn:Hb.
  - destruct b; [discriminate Hb | discriminate].
  - destruct a; [contradiction |].
    destruct (_ || _); rewrite append_cons; discriminate.
Qed.

Lemma main_subdir_nonempty (P : Platform) (name : string) :
  name <> "" -> Py.path_join (MAIN_DIR P) name <> "".
Proof.
  intros Hname. unfold Py.path_join.
  destruct (Py.startswith_sep name); [exact Hname |].
  destruct (_ || _); intros H; apply truthy_false in H;
    rewrite truthy_append in H; try discriminate; try exact Hname.
Qed.

Lemma or_else_nonempty (a b : string) : b <> "" -> Py.or_else a b <> "".
Proof.
  intros Hb. unfold Py.or_else.
  destruct (Py.truthy a) eqn:Ha; [now apply truthy_true | exact Hb].
Qed.

Lemma passes_checks_true P argv f :
  passes_checks P argv f = true ->
  List.length argv = 1%nat /\ version_major P = 3 /\
  (experiment_name f <> "" \/ train_dir f <> "" \/ mode f = "official_eval").
Proof.
  unfold passes_checks. intros H.
  apply andb_true_iff in H as [H Hgiven].
  apply andb_true_iff in H as [Hargv Hver].
  apply Nat.eqb_eq in Hargv. apply Z.eqb_eq in Hver.
  split; [exact Hargv | split; [exact Hver |]].
  apply negb_true_iff in Hgiven.
  destruct (Py.truthy (experiment_name f)) eqn:Hname.
  { left. now apply truthy_true. }
  destruct (Py.truthy (train_dir f)) eqn:Hdir.
  { right. left. now apply truthy_true. }
  right. right. cbn in Hgiven. apply negb_false_iff in Hgiven.
  now apply String.eqb_eq.
Qed.

(** X5. After the checks of lines 71 to 83 neither path is empty: whatever
    the flags were and however the run ends, [FLAGS.train_dir] and
    [FLAGS.glove_path] hold a non-empty path once the run is past line 90. *)
Theorem paths_never_empty_after_checks (P : Platform) (C : Collaborators)
    (argv : list string) (w : World) :
  passes_checks P argv (FLAGS w) = true ->
  let final := FLAGS (after (main P C argv) w) in
  train_dir final <> "" /\ glove_path final <> "".
Proof.
  intros Hchecks final. subst final.
  destruct (passes_checks_true _ _ _ Hchecks) as (Hargv & Hver & Hgiven).
  rewrite (main_flags_after P C argv w Hargv Hver Hgiven).
  unfold resolved_flags. cbn [train_dir glove_path set_glove_path set_train_dir].
  split.
  - apply or_else_nonempty, path_join_nonempty.
    apply main_subdir_nonempty. discriminate.
  - apply or_else_nonempty, path_join_nonempty.
    apply main_subdir_nonempty. discriminate.
Qed.

Lemma paths_never_empty_after_checks_witness :
  let w := blank (in_mode "official_eval" (default_flags here)) in
  let final := FLAGS (after (main here stub ["main.py"]) w) in
  passes_checks here ["main.py"] (FLAGS w) = true /\
  train_dir (FLAGS w) = "" /\ experiment_name (FLAGS w) = "" /\
  train_dir final <> "" /\ glove_path final <> "".
Proof.
  intros w final.
  split; [reflexivity |]. split; [reflexivity |]. split; [reflexivity |].
  exact (paths_never_empty_after_checks here stub ["main.py"] w eq_refl).
Defined.

(** ** Every run of [main] *)

(** X6. Every run of [main] keeps the session discipline: it opens at most
    one session, closes the one it opens also when the run ends in an
    exception, looks for checkpoints, restores, initializes, trains, scores
    and generates answers only inside it, and does nothing after closing
    it. *)
Theorem main_keeps_session_discipline (P : Platform) (C : Collaborators)
    (argv : list string) (w : World) :
  session_scoped (new_events w (after (main P C argv) w)) = true.
Proof.
  destruct w as [F env ex cs tv pr tr].
  by_wp (main P C argv) (mkWorld F env ex cs tv pr tr).
  start_main. wp_run; events_leaf; reflexivity.
Qed.



(** The embedding file is loaded once in a run that passes the checks, from
    the path of line 90, and not at all in a run that does not. *)
Lemma main_embedding_loads (P : Platform) (C : Collaborators)
    (argv : list string) (w : World) :
  List.filter is_get_glove (new_events w (after (main P C argv) w)) =
    if passes_checks P argv (FLAGS w)
    then [GetGlove (resolved_glove_path P (FLAGS w))
            (embedding_size (FLAGS w))]
    else [].
Proof.
  destruct w as [F env ex cs tv pr tr]. cbn [FLAGS].
  by_wp (main P C argv) (mkWorld F env ex cs tv pr tr).
  start_main.
  wp_run; events_leaf; unfold passes_checks; bool_facts; use_bool_facts;
    reflexivity.
Qed.

(** X8. [--data_dir] has no say in which embedding file is loaded: two
    runs that differ only in [FLAGS.data_dir] load the same file with the
    same dimension, or both load none.  (The default of line 90 is built on
    [DEFAULT_DATA_DIR], not on the flag.) *)
Theorem embedding_file_ignores_data_dir (P : Platform) (C : Collaborators)
    (argv : list string) (w : World) (other_data_dir : string) :
  let w2 := with_FLAGS (set_data_dir other_data_dir (FLAGS w)) w in
  List.filter is_get_glove (new_events w (after (main P C argv) w)) =
  List.filter is_get_glove (new_events w2 (after (main P C argv) w2)).
Proof.
  intros w2. subst w2. rewrite !main_embedding_loads.
  destruct w as [F env ex cs tv pr tr]. reflexivity.
Qed.

(** X9. A run that fails one of the checks of lines 71 to 83 has no effect
    beyond at most the version line on the console: it ends in an exception
    raised by [main] itself, and [FLAGS], the file system, the graph and the
    session are as before; nothing has been loaded. *)
Theorem failed_checks_have_no_effect (P : Platform) (C : Collaborators)
    (argv : list string) (w : World) :
  passes_checks P argv (FLAGS w) = false ->
  let m := main P C argv in
  (exists msg, outcome m w = Raise (Exception msg)) /\
  FLAGS (after m w) = FLAGS w /\
  existing (after m w) = existing w /\
  trainable_variables (after m w) = trainable_variables w /\
  params (after m w) = params w /\
  Forall (fun e => is_print e = true) (new_events w (after m w)).
Proof.
  intros Hchecks m. subst m.
  destruct w as [F env ex cs tv pr tr].
  cbn [FLAGS existing trainable_variables params] in *.
  by_wp (main P C argv) (mkWorld F env ex cs tv pr tr).
  unfold passes_checks in Hchecks.
  destruct (List.length argv =? 1)%nat eqn:Hargv;
    destruct (version_major P =? 3) eqn:Hver;
    cbn [andb] in Hchecks; try apply negb_false_iff in Hchecks;
    start_main; wp_run;
    (split; [eexists; reflexivity |]);
    repeat (split; [reflexivity |]);
    events_leaf;
    repeat (apply List.Forall_cons; [reflexivity |]); apply List.Forall_nil.
Qed.

Lemma failed_checks_have_no_effect_witness :
  let w := blank (default_flags here) in
  let m := main here stub ["main.py"] in
  passes_checks here ["main.py"] (FLAGS w) = false /\
  (exists msg, outcome m w = Raise (Exception msg)) /\
  FLAGS (after m w) = FLAGS w /\
  existing (after m w) = existing w /\
  trainable_variables (after m w) = trainable_variables w /\
  params (after m w) = params w /\
  Forall (fun e => is_print e = true) (new_events w (after m w)).
Proof.
  intros w m. split; [reflexivity |].
  exact (failed_checks_have_no_effect here stub ["main.py"] w eq_refl).
Defined.

(** X10. When the run directory and its best-checkpoint directory exist,
    no run of [main] creates a directory: the set-up of train mode is
    idempotent. *)
Theorem existing_directories_are_not_recreated (P : Platform)
    (C : Collaborators) (argv : list string) (w : World) :
  let dir := resolved_train_dir P (FLAGS w) in
  dir ∈ existing w ->
  Py.path_join dir "best_checkpoint" ∈ existing w ->
  Forall (fun e => is_any_makedirs e = false)
    (new_events w (after (main P C argv) w)).
Proof.
  intros dir Hdir Hbest.
  destruct w as [F env ex cs tv pr tr]. cbn [FLAGS existing] in *.
  by_wp (main P C argv) (mkWorld F env ex cs tv pr tr).
  assert (Hbest' :
            bool_decide (Py.path_join dir "best_checkpoint" ∈
              {[Py.path_join dir "flags.json"]} ∪
              ({[Py.path_join dir "log.txt"]} ∪ ex)) = true)
    by (apply bool_decide_eq_true_2; set_solver).
  assert (Hdir' : bool_decide (dir ∈ ex) = true)
    by (apply bool_decide_eq_true_2; exact Hdir).
  clear Hdir Hbest. subst dir. unfold resolved_train_dir in *.
  start_main.
  wp_run; events_leaf;
    repeat (apply List.Forall_cons; [reflexivity |]); apply List.Forall_nil.
Qed.

Lemma existing_directories_are_not_recreated_witness :
  let flags := named "baseline" (default_flags here) in
  let w := after (main here stub ["main.py"]) (blank flags) in
  let w_again := with_FLAGS flags w in
  resolved_train_dir here flags ∈ existing w_again /\
  Py.path_join (resolved_train_dir here flags) "best_checkpoint" ∈ existing w_again /\
  Forall (fun e => is_any_makedirs e = false)
    (new_events w_again (after (main here stub ["main.py"]) w_again)).
Proof.
  intros flags w w_again.
  assert (Hdir : resolved_train_dir here flags ∈ existing w_again)
    by (vm_compute; set_solver).
  assert (Hbest : Py.path_join (resolved_train_dir here flags) "best_checkpoint"
                    ∈ existing w_again)
    by (vm_compute; set_solver).
  split; [exact Hdir |]. split; [exact Hbest |].
  exact (existing_directories_are_not_recreated here stub ["main.py"] w_again
           Hdir Hbest).
Defined.

(** ** The remaining branch and the error paths *)



(** X12. When the embedding loader or the model constructor raises
    (lines 93 and 104), the exception leaves [main] as it is, before the
    mode is looked at: nothing has been created on disk, no session has been
    opened, and the trace ends at the failed call. *)
Theorem construction_failure_propagates (P : Platform) (C : Collaborators)
    (argv : list string) (w : World) :
  let F := FLAGS w in
  let w' := after (main P C argv) w in
  let version_line :=
    Print ("This code was developed and tested on TensorFlow 1.8.0. Your TensorFlow version: " +:+
           tf_version P) in
  let load := GetGlove (resolved_glove_path P F) (embedding_size F) in
  passes_checks P argv F = true ->
  (get_glove C (resolved_glove_path P F) (embedding_size F) = None ->
   outcome (main P C argv) w = Raise (Propagated "get_glove") /\
   existing w' = existing w /\
   new_events w w' = [version_line; load]) /\
  (forall emb,
     get_glove C (resolved_glove_path P F) (embedding_size F) = Some emb ->
     QAModel C (resolved_flags P F) emb = None ->
     outcome (main P C argv) w = Raise (Propagated "QAModel") /\
     existing w' = existing w /\
     new_events w w' = [version_line; load; NewQAModel (resolved_flags P F)]).
Proof.
  intros F w' version_line load Hchecks.
  subst F w' version_line load.
  destruct (passes_checks_true _ _ _ Hchecks) as (Hargv & Hver & Hgiven).
  clear Hchecks.
  destruct w as [F env ex cs tv pr tr]. cbn [FLAGS existing] in *.
  split.
  - intros Hglove.
    by_wp (main P C argv) (mkWorld F env ex cs tv pr tr).
    oracle_facts. start_main.
    destruct Hgiven as [Hname | [Hdir | Hmode]];
      [apply truthy_true in Hname | apply truthy_true in Hdir |];
      wp_run; repeat split; events_leaf; reflexivity.
  - intros emb Hglove Hmodel.
    by_wp (main P C argv) (mkWorld F env ex cs tv pr tr).
    oracle_facts. start_main.
    destruct Hgiven as [Hname | [Hdir | Hmode]];
      [apply truthy_true in Hname | apply truthy_true in Hdir |];
      wp_run; repeat split; events_leaf; reflexivity.
Qed.

Lemma construction_failure_propagates_witness :
  let flags := named "baseline" (default_flags here) in
  let w := blank flags in
  let m := main here stub_without_embeddings ["main.py"] in
  passes_checks here ["main.py"] (FLAGS w) = true /\
  outcome m w = Raise (Propagated "get_glove") /\
  existing (after m w) = existing w /\
  new_events w (after m w) =
    [Print "This code was developed and tested on TensorFlow 1.8.0. Your TensorFlow version: 1.8.0";
     GetGlove "./data/glove.6B.100d.txt" 100].
Proof.
  intros flags w m. split; [reflexivity |].
  destruct (construction_failure_propagates here stub_without_embeddings
              ["main.py"] w eq_refl) as [Hload _].
  destruct (Hload eq_refl) as (Hout & Hfs & Hevents).
  split; [exact Hout |]. split; [exact Hfs |].
  subst m. rewrite Hevents. vm_compute. reflexivity.
Defined.



(** X14. The two flag checks of [official_eval] mode (lines 147 to 150)
    come after the embeddings are loaded and the model is built: a run that
    fails one of them has done exactly the preamble, has read no input file
    and has opened no session. *)
Theorem official_eval_checks_follow_construction (P : Platform)
    (C : Collaborators) (argv : list string) (w : World)
    (emb : Embeddings C) (m : Model C) :
  let F := FLAGS w in
  mode F = "official_eval" ->
  List.length argv = 1%nat -> version_major P = 3 ->
  get_glove C (resolved_glove_path P F) (embedding_size F) = Some emb ->
  QAModel C (resolved_flags P F) emb = Some m ->
  json_in_path F = "" \/ ckpt_load_dir F = "" ->
  new_events w (after (main P C argv) w) = preamble P F /\
  trainable_variables (after (main P C argv) w) = model_variables C m /\
  existing (after (main P C argv) w) = existing w.
Proof.
  intros F. subst F.
  intros Hmode Hargv Hver Hglove Hmodel Hmissing.
  destruct w as [F env ex cs tv pr tr].
  cbn [FLAGS existing trainable_variables] in *.
  by_wp (main P C argv) (mkWorld F env ex cs tv pr tr).
  oracle_facts. start_main.
  destruct (String.eqb (json_in_path F) "") eqn:Hjson.
  - wp_run; simplify_eq; cbn [existing trainable_variables];
      repeat split; events_leaf; reflexivity.
  - destruct Hmissing as [Hmissing | Hckpt];
      [apply String.eqb_neq in Hjson; contradiction |].
    wp_run; simplify_eq; cbn [existing trainable_variables];
      repeat split; events_leaf; reflexivity.
Qed.

Lemma official_eval_checks_follow_construction_witness :
  let flags := eval_paths "" "dev.json" (in_mode "official_eval" (default_flags here)) in
  let w := blank flags in
  (mode flags = "official_eval" /\ List.length ["main.py"] = 1%nat /\
   version_major here = 3 /\ ckpt_load_dir flags = "") /\
  new_events w (after (main here stub ["main.py"]) w) = preamble here flags /\
  trainable_variables (after (main here stub ["main.py"]) w) =
    [[400; 200]; [200]; [7; 3; 2]].
Proof.
  intros flags w.
  split; [split; [reflexivity | split; [reflexivity | split; reflexivity]] |].
  destruct (official_eval_checks_follow_construction here stub ["main.py"] w
              tt tt eq_refl eq_refl eq_refl eq_refl eq_refl
              (or_intror eq_refl)) as (Hevents & Hvars & _).
  split; [exact Hevents | exact Hvars].
Defined.
